(** * gustaf/edges.py: connectivity of the [Edges] class

    A shallow embedding of [src/gustaf/edges.py].  Python objects become a
    record of attribute slots, methods become functions that take the
    receiver and return either a value (together with the receiver after the
    call, when the method assigns attributes) or the exception raised.
    Integer arrays hold [Z]; coordinates, which are floats in the program,
    are idealised as rationals.  Where a float result decides an integer
    (the number of points per dash), the float operations that round are
    parameters, so that nothing is assumed about their rounding. *)

From stdpp Require Import base list strings sorting.
From Stdlib Require Import ZArith QArith Qround Lia.

Open Scope Z_scope.

(** ** Exceptions and fallible computations *)

Inductive exn : Set :=
  | TypeError
  | AttributeError
  | IndexError
  | ValueError
  | AxisError
  | NotImplementedError.

Inductive result (A : Type) : Type :=
  | Ok (a : A)
  | Raise (e : exn).

Arguments Ok {A} a.
Arguments Raise {A} e.

Definition bind {A B : Type} (m : result A) (k : A -> result B) : result B :=
  match m with
  | Ok a => k a
  | Raise e => Raise e
  end.

Notation "'let*' x ':=' m 'in' k" := (bind m (fun x => k))
  (at level 10, x pattern, m at level 100, k at level 200).

Fixpoint mapM {A B : Type} (f : A -> result B) (l : list A)
  : result (list B) :=
  match l with
  | [] => Ok []
  | x :: l' =>
      let* y := f x in
      let* ys := mapM f l' in
      Ok (y :: ys)
  end.

Fixpoint foldM {A B : Type} (f : B -> A -> result B) (l : list A) (b : B)
  : result B :=
  match l with
  | [] => Ok b
  | x :: l' => let* b' := f b x in foldM f l' b'
  end.

(** ** numpy arrays and the indexing operations the module uses *)

(** An array of dimension one or two.  A two-dimensional array is the list
    of its rows; the type does not fix the row width. *)
Inductive nd (A : Type) : Type :=
  | Vec (v : list A)
  | Mat (rows : list (list A)).

Arguments Vec {A} v.
Arguments Mat {A} rows.

Definition ravel {A : Type} (a : nd A) : list A :=
  match a with
  | Vec v => v
  | Mat rows => concat rows
  end.

Definition nd_map {A B : Type} (f : A -> B) (a : nd A) : nd B :=
  match a with
  | Vec v => Vec (map f v)
  | Mat rows => Mat (map (map f) rows)
  end.

(** Operations along [axis=1] exist for two-dimensional arrays only. *)
Definition rows_of {A : Type} (a : nd A) : result (list (list A)) :=
  match a with
  | Mat rows => Ok rows
  | Vec _ => Raise AxisError
  end.

(** [a[i]] for an integer [i]: negative indices count from the end, anything
    outside [-n, n) raises IndexError. *)
Definition norm_index (n : nat) (i : Z) : result nat :=
  if (0 <=? i) && (i <? Z.of_nat n) then Ok (Z.to_nat i)
  else if (- Z.of_nat n <=? i) && (i <? 0) then Ok (Z.to_nat (i + Z.of_nat n))
  else Raise IndexError.

Definition getitem {A : Type} (l : list A) (i : Z) : result A :=
  let* k := norm_index (length l) i in
  match l !! k with
  | Some x => Ok x
  | None => Raise IndexError
  end.

(** [a[idx]] for an integer index array [idx]: the result has the shape of
    [idx]. *)
Definition take_list {A : Type} (l : list A) (idx : list Z)
  : result (list A) :=
  mapM (getitem l) idx.

Definition take_nd {A : Type} (l : list A) (idx : nd Z) : result (nd A) :=
  match idx with
  | Vec v => let* r := take_list l v in Ok (Vec r)
  | Mat rows => let* r := mapM (take_list l) rows in Ok (Mat r)
  end.

(** [a[mask]] for a boolean [mask], which must be as long as [a]. *)
Fixpoint compress {A : Type} (mask : list bool) (l : list A)
  : result (list A) :=
  match mask, l with
  | [], [] => Ok []
  | b :: mask', x :: l' =>
      let* r := compress mask' l' in
      Ok (if b then x :: r else r)
  | _, _ => Raise IndexError
  end.

(** [a[idx] = x] for an integer index array [idx]. *)
Definition setitem_all {A : Type} (l : list A) (idx : nd Z) (x : A)
  : result (list A) :=
  foldM (fun acc i =>
           let* k := norm_index (length acc) i in
           Ok (<[k := x]> acc))
        (ravel idx) l.

(** [a[mask] = src] for a boolean [mask] as long as [a], where [src] supplies
    one value per selected position (the only use passes
    [arange(mask.sum())], so numpy's broadcasting of a shorter [src] never
    applies). *)
Fixpoint setitem_mask {A : Type} (l : list A) (mask : list bool)
  (src : list A) : result (list A) :=
  match l, mask with
  | [], [] => match src with [] => Ok [] | _ => Raise ValueError end
  | x :: l', true :: mask' =>
      match src with
      | s :: src' =>
          let* r := setitem_mask l' mask' src' in Ok (s :: r)
      | [] => Raise ValueError
      end
  | x :: l', false :: mask' =>
      let* r := setitem_mask l' mask' src in Ok (x :: r)
  | _, _ => Raise IndexError
  end.

(** [np.arange(n)], [np.zeros(n)] and [mask.sum()]. *)
Definition arange (n : nat) : list Z := map Z.of_nat (seq 0 n).

Definition zeros {A : Type} (zero : A) (n : nat) : list A := replicate n zero.

Definition mask_sum (mask : list bool) : nat :=
  length (filter (fun b => b = true) mask).

(** [a.sort(axis=1)] on one row: ascending insertion sort. *)
Fixpoint insert_sorted (x : Z) (l : list Z) : list Z :=
  match l with
  | [] => [x]
  | y :: l' => if x <=? y then x :: y :: l' else y :: insert_sorted x l'
  end.

Definition sort_row (row : list Z) : list Z :=
  foldr insert_sorted [] row.

(** [str.lower()] on ASCII strings. *)
Definition lower_ascii (c : Ascii.ascii) : Ascii.ascii :=
  let n := Ascii.nat_of_ascii c in
  if (65 <=? n)%nat && (n <=? 90)%nat then Ascii.ascii_of_nat (n + 32) else c.

Fixpoint lower (s : string) : string :=
  match s with
  | EmptyString => EmptyString
  | String c s' => String (lower_ascii c) (lower s')
  end.

(** ** Collaborators that live outside [edges.py] *)

Definition point : Type := list Q.

(** Modelled from the spec: [helpers.data.TrackedArray], "a numeric array
    wrapper" over a buffer, with the writeability flag of its views.  It is
    an array and nothing more; in particular it cannot be called. *)
Record TrackedArray : Type := {
  data : nd Z;
  writeable : bool
}.

(** The integer dtype [settings.INT_DTYPE], int32: converting an integer
    array to it wraps the entries around. *)
Definition to_int_dtype (z : Z) : Z := (z + 2 ^ 31) mod 2 ^ 32 - 2 ^ 31.

(** Modelled from the spec: [helpers.data.make_tracked_array(array, dtype)],
    which wraps the buffer, converted to the dtype, and "preserves read
    access transparently".  It is given the array and the integer dtype
    only. *)
Definition make_tracked_array (es : nd Z) : TrackedArray :=
  {| data := nd_map to_int_dtype es; writeable := true |}.

(** [a.view()] followed by [flags.writeable = False]: same storage. *)
Definition const_view (a : TrackedArray) : TrackedArray :=
  {| data := data a; writeable := false |}.

(** Calling an array, [a(...)]: arrays define no [__call__]. *)
Definition call_array {A : Type} (a : TrackedArray) : result A :=
  Raise TypeError.

(** Modelled from the spec: the stable-unique-rows primitive
    [utils.arr.unique_rows], returning "unique rows in first-occurrence
    order, first-occurrence index per group, inverse mapping from original
    row to group, per-group occurrence count". *)
Fixpoint index_of (r : list Z) (l : list (list Z)) : nat :=
  match l with
  | [] => 0
  | x :: l' => if decide (x = r) then 0 else S (index_of r l')
  end.

Fixpoint nub (l : list (list Z)) : list (list Z) :=
  match l with
  | [] => []
  | x :: l' => x :: filter (fun y => y <> x) (nub l')
  end.

Definition occurrences (r : list Z) (l : list (list Z)) : nat :=
  length (filter (fun y => y = r) l).

Definition unique_rows (rows : list (list Z))
  : list (list Z) * list Z * list Z * list Z :=
  let u := nub rows in
  (u,
   map (fun r => Z.of_nat (index_of r rows)) u,
   map (fun r => Z.of_nat (index_of r u)) rows,
   map (fun r => Z.of_nat (occurrences r rows)) u).

(** ** The object *)

(** The class of the receiver: [type(self).__qualname__] and the class
    attribute [kind], which subclasses override. *)
Record pyclass : Type := {
  qualname : string;
  kind : string
}.

Definition Edges_class : pyclass :=
  {| qualname := "Edges"; kind := "edge" |}.

(** An instance: one field per attribute name the module reads or assigns;
    [None] is an attribute that was never assigned.  Which of these names
    an instance can hold at all is decided by [assign] below. *)
Record Edges : Type := {
  cls : pyclass;
  _vertices : option (list point);
  vertexdata : list (string * list Q);
  vis_dict : list (string * string);
  _edges : option TrackedArray;
  edges_sorted : option (nd Z);
  edges_unique_id : option (list Z);
  edges_unique : option (nd Z);
  edges_unique_inverse : option (list Z);
  edges_unique_count : option (list Z);
  outlines : option (list Z)
}.

Definition set__edges (a : TrackedArray) (o : Edges) : Edges :=
  {| cls := cls o; _vertices := _vertices o; vertexdata := vertexdata o;
     vis_dict := vis_dict o; _edges := Some a;
     edges_sorted := edges_sorted o; edges_unique_id := edges_unique_id o;
     edges_unique := edges_unique o;
     edges_unique_inverse := edges_unique_inverse o;
     edges_unique_count := edges_unique_count o; outlines := outlines o |}.

Definition set_edges_sorted (v : nd Z) (o : Edges) : Edges :=
  {| cls := cls o; _vertices := _vertices o; vertexdata := vertexdata o;
     vis_dict := vis_dict o; _edges := _edges o;
     edges_sorted := Some v; edges_unique_id := edges_unique_id o;
     edges_unique := edges_unique o;
     edges_unique_inverse := edges_unique_inverse o;
     edges_unique_count := edges_unique_count o; outlines := outlines o |}.

Definition set_edges_unique_id (v : list Z) (o : Edges) : Edges :=
  {| cls := cls o; _vertices := _vertices o; vertexdata := vertexdata o;
     vis_dict := vis_dict o; _edges := _edges o;
     edges_sorted := edges_sorted o; edges_unique_id := Some v;
     edges_unique := edges_unique o;
     edges_unique_inverse := edges_unique_inverse o;
     edges_unique_count := edges_unique_count o; outlines := outlines o |}.

Definition set_edges_unique (v : nd Z) (o : Edges) : Edges :=
  {| cls := cls o; _vertices := _vertices o; vertexdata := vertexdata o;
     vis_dict := vis_dict o; _edges := _edges o;
     edges_sorted := edges_sorted o; edges_unique_id := edges_unique_id o;
     edges_unique := Some v;
     edges_unique_inverse := edges_unique_inverse o;
     edges_unique_count := edges_unique_count o; outlines := outlines o |}.

Definition set_edges_unique_inverse (v : list Z) (o : Edges) : Edges :=
  {| cls := cls o; _vertices := _vertices o; vertexdata := vertexdata o;
     vis_dict := vis_dict o; _edges := _edges o;
     edges_sorted := edges_sorted o; edges_unique_id := edges_unique_id o;
     edges_unique := edges_unique o;
     edges_unique_inverse := Some v;
     edges_unique_count := edges_unique_count o; outlines := outlines o |}.

Definition set_edges_unique_count (v : list Z) (o : Edges) : Edges :=
  {| cls := cls o; _vertices := _vertices o; vertexdata := vertexdata o;
     vis_dict := vis_dict o; _edges := _edges o;
     edges_sorted := edges_sorted o; edges_unique_id := edges_unique_id o;
     edges_unique := edges_unique o;
     edges_unique_inverse := edges_unique_inverse o;
     edges_unique_count := Some v; outlines := outlines o |}.

Definition set_outlines (v : list Z) (o : Edges) : Edges :=
  {| cls := cls o; _vertices := _vertices o; vertexdata := vertexdata o;
     vis_dict := vis_dict o; _edges := _edges o;
     edges_sorted := edges_sorted o; edges_unique_id := edges_unique_id o;
     edges_unique := edges_unique o;
     edges_unique_inverse := edges_unique_inverse o;
     edges_unique_count := edges_unique_count o; outlines := Some v |}.

Definition set_vertex_attributes (vd : list (string * list Q))
  (vis : list (string * string)) (o : Edges) : Edges :=
  {| cls := cls o; _vertices := _vertices o; vertexdata := vd;
     vis_dict := vis; _edges := _edges o;
     edges_sorted := edges_sorted o; edges_unique_id := edges_unique_id o;
     edges_unique := edges_unique o;
     edges_unique_inverse := edges_unique_inverse o;
     edges_unique_count := edges_unique_count o; outlines := outlines o |}.

(** Lines 18-21: the class declares [__slots__].  ([_edges_sorted] is
    declared and never used; the module assigns [edges_sorted].) *)
Definition __slots__ : list string := ["_edges"; "_edges_sorted"]%string.

(** The attributes of the base class [Vertices] that this module reads.
    The base class is slotted like this one, so an instance has no
    [__dict__]: a name that is neither declared here nor inherited cannot
    be assigned. *)
Definition Vertices_attributes : list string :=
  ["_vertices"; "vertexdata"; "vis_dict"]%string.

Definition assignable (name : string) : bool :=
  existsb (String.eqb name) (__slots__ ++ Vertices_attributes).

(** [self.name = value]: [put] stores the value; a name that is no
    attribute of the instance raises AttributeError and stores nothing. *)
Definition assign (name : string) (put : Edges -> Edges) (self : Edges)
  : result Edges :=
  if assignable name then Ok (put self) else Raise AttributeError.

(** Reading an attribute that may not have been assigned. *)
Definition attr {A : Type} (slot : option A) : result A :=
  match slot with
  | Some a => Ok a
  | None => Raise AttributeError
  end.

(** Modelled from the spec: the base class [Vertices] (gustaf/vertices.py,
    not under src/) owns the point cloud; its constructor stores the points
    it is given, and [vertices] / [const_vertices] read them back. *)
Definition Vertices_init (c : pyclass) (vertices : option (list point))
  : Edges :=
  {| cls := c; _vertices := vertices; vertexdata := []; vis_dict := [];
     _edges := None; edges_sorted := None;
     edges_unique_id := None; edges_unique := None;
     edges_unique_inverse := None; edges_unique_count := None;
     outlines := None |}.

Definition vertices (self : Edges) : result (list point) :=
  attr (_vertices self).

Definition const_vertices (self : Edges) : result (list point) :=
  attr (_vertices self).

(** ** [Edges]: constructor and accessors (lines 23-145) *)

(** [edges] property. *)
Definition edges (self : Edges) : result TrackedArray :=
  attr (_edges self).

(** [edges] setter.  A setter that raises has still run the lines before
    the raise, so it returns the receiver as it leaves it together with
    the outcome: lines 75-78 assign [_edges]; line 80 assigns
    [_const_edges], the non-writeable view of that same array (line 81),
    which is no slot. *)
Definition edges_setter (self : Edges) (es : nd Z) : Edges * result unit :=
  match assign "_edges" (set__edges (make_tracked_array es)) self with
  | Raise e => (self, Raise e)
  | Ok self =>
      match assign "_const_edges" (fun o => o) self with
      | Raise e => (self, Raise e)
      | Ok self => (self, Ok tt)
      end
  end.

(** The read-only alias of the connectivity: a non-writeable view of the
    storage of [_edges]. *)
Definition _const_edges (self : Edges) : option TrackedArray :=
  option_map const_view (_edges self).

(** Modelled from the spec: the read-only alias of the connectivity,
    [const_edges] ("a read-only (non-writeable) alias over the same
    storage"), which [const_elements] looks up by name and which is not
    defined in this file. *)
Definition const_edges (self : Edges) : result TrackedArray :=
  attr (_const_edges self).

(** [getattr(self, name)] and [setattr(self, name, value)] for the array
    attributes of this class. *)
Definition getattr (self : Edges) (name : string) : result TrackedArray :=
  if String.eqb name "edges" then edges self
  else if String.eqb name "const_edges" then const_edges self
  else Raise AttributeError.

Definition setattr (self : Edges) (name : string) (value : nd Z)
  : Edges * result unit :=
  if String.eqb name "edges" then edges_setter self value
  else (self, Raise AttributeError).

(** [elements] property, its setter, and [const_elements]. *)
Definition elements (self : Edges) : result TrackedArray :=
  let elem_name := lower (qualname (cls self)) in
  getattr self elem_name.

Definition elements_setter (self : Edges) (elems : nd Z)
  : Edges * result unit :=
  let elem_name := lower (qualname (cls self)) in
  setattr self elem_name elems.

Definition const_elements (self : Edges) : result TrackedArray :=
  getattr self ("const_" ++ lower (qualname (cls self))).

(** A constructor hands out the object only when its body returns. *)
Definition constructed (r : Edges * result unit) : result Edges :=
  let* _ := snd r in Ok (fst r).

(** [__init__], and [type(self)(vertices=..., edges=..., elements=...)] for
    a receiver of class [c]. *)
Definition Edges_init (c : pyclass) (vertices : option (list point))
  (edges elements : option (nd Z)) : result Edges :=
  let self := Vertices_init c vertices in
  match edges with
  | Some es => constructed (edges_setter self es)
  | None =>
      match elements with
      | Some es => constructed (edges_setter self es)
      | None => Ok self
      end
  end.

(** ** Centers and referenced vertices (lines 147-203) *)

Definition Qsum (l : list Q) : Q := foldr Qplus 0%Q l.

Definition Qmean (l : list Q) : Q :=
  (Qsum l / inject_Z (Z.of_nat (length l)))%Q.

Definition vadd (p q : point) : point := zip_with Qplus p q.
Definition vsub (p q : point) : point := zip_with Qminus p q.
Definition vscale (c : Q) (p : point) : point := map (fun x => (x * c)%Q) p.

(** Mean of a block of points, coordinate by coordinate.  The mean of an
    empty block (nan in numpy) is not used by any statement below. *)
Definition mean_points (ps : list point) : point :=
  match ps with
  | [] => []
  | p :: ps' =>
      map (fun x => (x / inject_Z (Z.of_nat (length ps)))%Q)
          (foldl vadd p ps')
  end.

(** [centers]: [const_vertices[const_elements].mean(axis=1)].  The
    [depends_on] decorator only caches the value. *)
Definition centers (self : Edges) : result (nd Q) :=
  let* vs := const_vertices self in
  let* elems := const_elements self in
  let* picked := take_nd vs (data elems) in
  Ok (match picked with
      | Mat blocks => Mat (map mean_points blocks)
      | Vec ps => Vec (map Qmean ps)
      end).

(** Modelled from the spec: the accessor [get_centers] of the cached
    centers, which [shrink] calls and this file does not define. *)
Definition get_centers (self : Edges) : result (nd Q) := centers self.

(** [referenced_vertices]. *)
Definition referenced_vertices (self : Edges) : result (list bool) :=
  let* vs := const_vertices self in
  let referenced := zeros false (length vs) in
  let* elems := const_elements self in
  setitem_all referenced (data elems) true.

(** Modelled from the spec: [Vertices.update_vertices(mask, inverse)], the
    "rebuild from a vertex mask plus index-remap" operation: the result is
    "a new object whose point cloud contains only referenced points (in
    original relative order) and whose connectivity rows are remapped
    through the compaction map"; the per-vertex attribute arrays are
    remapped with the points and the visualization options carried over. *)
Definition update_vertices (self : Edges) (mask : list bool)
  (inverse : list Z) : result Edges :=
  let* vs := vertices self in
  let* vs' := compress mask vs in
  let* elems := elements self in
  let* elems' := take_nd inverse (data elems) in
  let* vd' := mapM (fun kv : string * list Q =>
                      let* v' := compress mask (snd kv) in
                      Ok (fst kv, v'))
                   (vertexdata self) in
  let* new_self := Edges_init (cls self) (Some vs') None (Some elems') in
  Ok (set_vertex_attributes vd' (vis_dict self) new_self).

(** [remove_unreferenced_vertices]. *)
Definition remove_unreferenced_vertices (self : Edges) : result Edges :=
  let* referenced := referenced_vertices self in
  let* vs := vertices self in
  let inverse := zeros 0 (length vs) in
  let* inverse :=
    setitem_mask inverse referenced (arange (mask_sum referenced)) in
  update_vertices self referenced inverse.

(** A call of [remove_unreferenced_vertices] with keyword arguments: the
    signature at line 182 has no parameter besides [self], so any keyword
    is refused. *)
Definition call_remove_unreferenced_vertices (kwargs : list string)
  (self : Edges) : result Edges :=
  match kwargs with
  | [] => remove_unreferenced_vertices self
  | _ :: _ => Raise TypeError
  end.

(** ** Sorted and unique edges, outlines (lines 206-306) *)

(** Modelled from the spec: the accessor [get_edges], which [sorted_edges]
    calls and this file does not define: the connectivity table. *)
Definition get_edges (self : Edges) : result TrackedArray := edges self.

(** [sorted_edges]: line 219 assigns a copy of the table to
    [edges_sorted]; line 220 sorts every row of that copy in place. *)
Definition sorted_edges (self : Edges) : result (nd Z * Edges) :=
  let* es := get_edges self in
  let* self := assign "edges_sorted" (set_edges_sorted (data es)) self in
  let* copy := attr (edges_sorted self) in
  let* rows := rows_of copy in
  let self := set_edges_sorted (Mat (map sort_row rows)) self in
  let* sorted := attr (edges_sorted self) in
  Ok (sorted, self).

(** Modelled from the spec: the accessor [get_edges_sorted] of the cached
    "sorted connectivity", which [get_edges_unique] calls and this file
    does not define. *)
Definition get_edges_sorted (self : Edges) : result (nd Z * Edges) :=
  sorted_edges self.

(** [a[idx]] along the first axis, for a one-dimensional index array. *)
Definition take_rows {A : Type} (a : nd A) (idx : list Z) : result (nd A) :=
  match a with
  | Vec v => let* r := take_list v idx in Ok (Vec r)
  | Mat rows => let* r := take_list rows idx in Ok (Mat r)
  end.

(** [a[mask]] along the first axis, for a boolean mask. *)
Definition take_rows_mask {A : Type} (a : nd A) (mask : list bool)
  : result (nd A) :=
  match a with
  | Vec v => let* r := compress mask v in Ok (Vec r)
  | Mat rows => let* r := compress mask rows in Ok (Mat r)
  end.

(** [get_edges_unique]: the unique-rows primitive on the sorted table
    (lines 236-242), then five assignments (lines 247-251). *)
Definition get_edges_unique (self : Edges) : result (nd Z * Edges) :=
  let* (es_sorted, self) := get_edges_sorted self in
  let* rows := rows_of es_sorted in
  let '(_, index, inverse, counts) := unique_rows rows in
  let* self :=
    assign "edges_unique_id"
      (set_edges_unique_id (map to_int_dtype index)) self in
  let* es := edges self in
  let* ids := attr (edges_unique_id self) in
  let* eu := take_rows (data es) ids in
  let* self := assign "edges_unique" (set_edges_unique eu) self in
  let* self :=
    assign "edges_unique_inverse"
      (set_edges_unique_inverse (map to_int_dtype inverse)) self in
  let* self :=
    assign "edges_unique_count"
      (set_edges_unique_count (map to_int_dtype counts)) self in
  let* ids := attr (edges_unique_id self) in
  let* cnt := attr (edges_unique_count self) in
  let* out := compress (map (fun c => c =? 1) cnt) ids in
  let* self := assign "outlines" (set_outlines out) self in
  let* r := attr (edges_unique self) in
  Ok (r, self).

(** [get_edges_unique_id], [get_edges_unique_inverse], [get_outlines]. *)
Definition get_edges_unique_id (self : Edges) : result (list Z * Edges) :=
  let* (_, self) := get_edges_unique self in
  let* r := attr (edges_unique_id self) in
  Ok (r, self).

Definition get_edges_unique_inverse (self : Edges)
  : result (list Z * Edges) :=
  let* (_, self) := get_edges_unique self in
  let* r := attr (edges_unique_inverse self) in
  Ok (r, self).

Definition get_outlines (self : Edges) : result (list Z * Edges) :=
  let* (_, self) := get_edges_unique self in
  let* r := attr (outlines self) in
  Ok (r, self).

(** ** Structural edits (lines 308-370) *)

(** [update_elements(mask, inplace)]. *)
Definition update_elements (self : Edges) (mask : list bool) (inplace : bool)
  : result (option Edges * Edges) :=
  let* elems := elements self in
  let* called := call_array elems in
  let* new_elements := take_rows_mask called mask in
  if inplace then
    let* elems := elements self in
    let* target := call_array elems in
    let* _ := call_remove_unreferenced_vertices ["inplace"%string] target in
    Ok (None, self)
  else
    let* vs := vertices self in
    let* fresh := Edges_init (cls self) (Some vs) None (Some new_elements) in
    let* r := call_remove_unreferenced_vertices ["inplace"%string] fresh in
    Ok (Some r, self).

(** [update_edges]: alias of [update_elements]. *)
Definition update_edges (self : Edges) (mask : list bool) (inplace : bool)
  : result (option Edges * Edges) :=
  update_elements self mask inplace.

Section Subdivide.

(** The face descriptor [get_whatami] and the refinement kernels
    [utils.connec.subdivide_tri] / [subdivide_quad] are external
    collaborators; the kernels return the constructor's arguments. *)
Variable get_whatami : Edges -> string.
Variable subdivide_tri subdivide_quad : Edges -> list point * nd Z.

(** [subdivide]. *)
Definition subdivide (self : Edges) : result (option Edges) :=
  if negb (String.eqb (kind (cls self)) "face") then
    Raise NotImplementedError
  else
    let whatami := get_whatami self in
    if String.prefix "tri" whatami then
      let '(vs, es) := subdivide_tri self in
      let* r := Edges_init (cls self) (Some vs) None (Some es) in
      Ok (Some r)
    else if String.prefix "quad" whatami then
      let '(vs, es) := subdivide_quad self in
      let* r := Edges_init (cls self) (Some vs) None (Some es) in
      Ok (Some r)
    else Ok None.

End Subdivide.

(** ** Dashed edges (lines 372-421) *)

(** [x.astype(np.int32)] for a float holding the integer [z].  numpy leaves
    the conversion of values that do not fit (and of nan and inf)
    platform-defined; the common platforms yield the smallest int32. *)
Definition INT32_MIN : Z := - 2 ^ 31.

Definition astype_int32 (z : Z) : Z :=
  if (INT32_MIN <=? z) && (z <? 2 ^ 31) then z else INT32_MIN.

(** [np.linspace(v0, v1, num)]: [num] evenly spaced points, both ends
    included.  For [num = 1] the step is a division by zero, which is 0
    here, and the only point is [v0], as in numpy. *)
Definition linspace (v0 v1 : point) (num : Z) : result (list point) :=
  if num <? 0 then Raise ValueError
  else
    let step := vscale (/ inject_Z (num - 1))%Q (vsub v1 v0) in
    Ok (map (fun i : nat => vadd v0 (vscale (inject_Z (Z.of_nat i)) step))
            (seq 0 (Z.to_nat num))).

(** [a[:, j]] and [a[::2]]. *)
Definition column (a : nd Z) (j : Z) : result (list Z) :=
  match a with
  | Vec _ => Raise IndexError
  | Mat rows => mapM (fun r => getitem r j) rows
  end.

Fixpoint every_other {A : Type} (l : list A) : list A :=
  match l with
  | [] => []
  | x :: l' =>
      x :: match l' with
           | [] => []
           | _ :: l'' => every_other l''
           end
  end.

(** [mask = ones(n); mask[1::3] = False]. *)
Definition mids_mask (n : nat) : list bool :=
  map (fun i => negb (i mod 3 =? 1)%nat) (seq 0 n).

(** The loop of lines 404-406 over [zip(v0s, v1s, linspaces)]. *)
Fixpoint chop (v0s v1s : list point) (linspaces : list Z)
  : result (list (list point)) :=
  match v0s, v1s, linspaces with
  | v0 :: v0s', v1 :: v1s', lins :: linspaces' =>
      let* pts := linspace v0 v1 lins in
      let* rest := chop v0s' v1s' linspaces' in
      Ok (pts :: rest)
  | _, _, _ => Ok []
  end.

Section Dashed.

(** Float operations that round, and collaborators outside this file:
    [fmul a b] and [fdiv a b] are the product and the quotient of two
    doubles as the machine rounds them, [edge_length v0 v1] is
    [np.linalg.norm(v0 - v1)] for one row, [get_bounds_diagonal_norm] the
    diagonal of the bounding box of the point cloud, and [range_to_edges]
    is [utils.connec.range_to_edges((a, b), closed)]. *)
Variable fmul fdiv : Q -> Q -> Q.
Variable edge_length : point -> point -> Q.
Variable get_bounds_diagonal_norm : Edges -> Q.
Variable range_to_edges : Z -> Z -> bool -> list (list Z).

(** Line 401 for one edge of length [distance]:
    [(((distance // (spacing * 1.5)) + 1) * 3).astype(np.int32)].
    The floor division of two doubles is the floor of their exact
    quotient; the small integers it yields are added and multiplied
    exactly.  Dividing by zero gives nan or inf and raises nothing. *)
Definition linspaces_of (spacing distance : Q) : Z :=
  let divisor := fmul spacing 1.5 in
  if Qeq_bool divisor 0 then INT32_MIN
  else astype_int32 ((Qfloor (distance / divisor) + 1) * 3).

(** [dashed(spacing)]. *)
Definition dashed (self : Edges) (spacing : option Q) : result Edges :=
  if negb (String.eqb (kind (cls self)) "edge") then
    Raise NotImplementedError
  else
    let spacing :=
      match spacing with
      | Some s => s
      | None => fdiv (get_bounds_diagonal_norm self) 50
      end in
    let* vs := vertices self in
    let* es := edges self in
    let* c0 := column (data es) 0 in
    let* v0s := take_list vs c0 in
    let* vs := vertices self in
    let* es := edges self in
    let* c1 := column (data es) 1 in
    let* v1s := take_list vs c1 in
    let distances := zip_with edge_length v0s v1s in
    let linspaces := map (linspaces_of spacing) distances in
    let* new_vs := chop v0s v1s linspaces in
    let* new_vs :=
      match new_vs with
      | [] => Raise ValueError
      | _ :: _ => Ok (concat new_vs)
      end in
    let mask := mids_mask (length new_vs) in
    let* new_vs := compress mask new_vs in
    let tmp_es := range_to_edges 0 (Z.of_nat (length new_vs)) false in
    let new_es := every_other tmp_es in
    Edges_init Edges_class (Some new_vs) (Some (Mat new_es)) None.

End Dashed.

(** ** Shrink (lines 423-462) *)

(** [a.shape[1]].  [Mat] does not record the width of a table without
    rows; the width of an edge table is used for it. *)
Definition shape1 {A : Type} (a : nd A) : result nat :=
  match a with
  | Vec _ => Raise IndexError
  | Mat [] => Ok 2%nat
  | Mat (r :: _) => Ok (length r)
  end.

(** [a.reshape(-1, k)] of a one-dimensional array. *)
Fixpoint reshape_rows {A : Type} (m k : nat) (l : list A) : list (list A) :=
  match m with
  | O => []
  | S m' => take k l :: reshape_rows m' k (drop k l)
  end.

Definition reshape {A : Type} (k : nat) (l : list A)
  : result (list (list A)) :=
  if (k =? 0)%nat then Raise ValueError
  else if (length l mod k =? 0)%nat
       then Ok (reshape_rows (length l / k) k l)
       else Raise ValueError.

(** [np.repeat(a, k, axis=0)]. *)
Definition repeat_rows {A : Type} (k : nat) (l : list A) : list A :=
  concat (map (replicate k) l).

(** [shrink(ratio, map_vertexdata)]. *)
Definition shrink (self : Edges) (ratio : Q) (map_vertexdata : bool)
  : result Edges :=
  let* elems := elements self in
  let* elements := call_array (A := nd Z) elems in
  let* verts := vertices self in
  let* picked := take_nd verts elements in
  let vs := ravel picked in
  let es := arange (length vs) in
  let* nodes_per_element := shape1 elements in
  let* es := reshape nodes_per_element es in
  let* cs := get_centers self in
  let* cs := rows_of cs in
  let mids := repeat_rows nodes_per_element cs in
  let vs := zip_with vsub vs mids in
  let vs := map (vscale ratio) vs in
  let vs := zip_with vadd vs mids in
  let* s_elements := Edges_init (cls self) (Some vs) None (Some (Mat es)) in
  if map_vertexdata then
    let elements_flat := ravel elements in
    let* vd := mapM (fun kv : string * list Q =>
                       let* v' := take_list (snd kv) elements_flat in
                       Ok (fst kv, v'))
                    (vertexdata self) in
    Ok (set_vertex_attributes vd (vis_dict self) s_elements)
  else Ok s_elements.

(** ** Notions used in the statements *)

(** A receiver over the points [vs] whose slot [_edges] holds the table
    [es]: what line 75 leaves behind when the setter is run on an object
    built from the points alone. *)
Definition new_Edges (vs : list point) (es : nd Z) : Edges :=
  set__edges (make_tracked_array es) (Vertices_init Edges_class (Some vs)).

(** [self.get_edges_unique()[self.get_edges_unique_inverse()]], the
    reconstruction of the docstring at line 277. *)
Definition reconstruct (self : Edges) : result (nd Z) :=
  let* (unique, self) := get_edges_unique self in
  let* (inverse, self) := get_edges_unique_inverse self in
  take_rows unique inverse.

(** The subdivision count as the specification words it:
    [round_up(length / (spacing * 1.5)) * 3], at least 3. *)
Definition round_up_linspaces (spacing distance : Q) : Z :=
  Z.max 3 (Qceiling (distance / (spacing * 1.5)) * 3).

(** Scenarios of the specification. *)
Definition square_points : list point :=
  [[0; 0]; [1; 0]; [5; 5]; [9; 9]]%Q.

Definition scenario1 : Edges :=
  new_Edges square_points (Mat [[0; 1]; [1; 0]; [2; 3]]).

Definition scenario2 : Edges :=
  new_Edges square_points (Mat [[0; 1]]).

Definition reversed_pair : Edges :=
  new_Edges square_points (Mat [[0; 1]; [1; 0]]).

(** One edge from a point to itself. *)
Definition degenerate : Edges :=
  new_Edges [[1; 0]]%Q (Mat [[0; 0]]).


(** An object of a face class, and of no particular topology. *)
Definition some_faces : Edges :=
  Vertices_init {| qualname := "Faces"; kind := "face" |} (Some square_points).

(** * Properties *)

(** ** The result monad *)

Lemma bind_Ok {A B : Type} (m : result A) (k : A -> result B) (b : B) :
  bind m k = Ok b -> exists a, m = Ok a /\ k a = Ok b.
Proof. destruct m as [a|e]; simpl; [eauto | discriminate]. Qed.

(** ** Attribute assignment *)

(** The receivers of the scenarios are reachable: the setter, run on an
    object built from the points alone, leaves exactly such a receiver
    behind when it raises. *)
Lemma setter_leaves_table (vs : list point) (es : nd Z) :
  edges_setter (Vertices_init Edges_class (Some vs)) es
  = (new_Edges vs es, Raise AttributeError).
Proof. reflexivity. Qed.

Lemma edges_setter_eq (self : Edges) (es : nd Z) :
  edges_setter self es
  = (set__edges (make_tracked_array es) self, Raise AttributeError).
Proof. reflexivity. Qed.

Lemma Edges_init_connectivity (c : pyclass) (vs : option (list point))
  (edges elements : option (nd Z)) :
  edges <> None \/ elements <> None ->
  Edges_init c vs edges elements = Raise AttributeError.
Proof.
  intros [Hsome | Hsome]; destruct edges, elements; try done.
Qed.

Lemma to_int_dtype_fits (z : Z) :
  - 2 ^ 31 <= z < 2 ^ 31 -> to_int_dtype z = z.
Proof.
  intros Hz. unfold to_int_dtype.
  rewrite Z.mod_small by lia. lia.
Qed.

(** ** Constructor and accessors *)

(** C10 on the code: the constructor returns no object when a
    connectivity is given, as [edges] or as [elements] or as both: the
    setter it calls raises AttributeError at line 80, [_const_edges] being
    no slot.  With neither, it returns an object without connectivity,
    whose [edges] property raises AttributeError. *)
Theorem init_with_connectivity_raises :
  (forall c vs es els,
      Edges_init c vs (Some es) els = Raise AttributeError)
  /\ (forall c vs es,
         Edges_init c vs None (Some es) = Raise AttributeError)
  /\ Edges_init Edges_class (Some square_points) (Some (Mat [[0; 1]])) None
     = Raise AttributeError
  /\ (forall c vs,
         exists self,
           Edges_init c vs None None = Ok self
           /\ _edges self = None
           /\ edges self = Raise AttributeError).
Proof.
  split; [intros c vs es els; by destruct els |].
  split; [done |]. split; [done |].
  intros c vs. eexists. repeat split.
Qed.

(** On an object of the class [Edges], [elements] is [edges]
    (lines 102-105). *)
Lemma edges_setter_serves (self : Edges) (t : TrackedArray) :
  _edges self = Some t ->
  String.eqb (lower (qualname (cls self))) "edges" = true ->
  elements self = Ok t.
Proof.
  intros Hes Hname.
  unfold elements, getattr. rewrite Hname.
  unfold edges. by rewrite Hes.
Qed.

(** C5, as the code has it: the [edges] setter checks no shape.  Whatever
    the dimension or row width of the array, line 75 stores it, converted
    to the integer dtype, as the connectivity; the points and the class
    of the receiver are untouched; on an object of the class [Edges] the
    properties [edges] and [elements] then serve that array; and the
    outcome of the setter is the same for every array. *)
Theorem edges_setter_checks_no_shape (self : Edges) (es : nd Z) :
  edges (fst (edges_setter self es))
  = Ok {| data := nd_map to_int_dtype es; writeable := true |}
  /\ _vertices (fst (edges_setter self es)) = _vertices self
  /\ cls (fst (edges_setter self es)) = cls self
  /\ (String.eqb (lower (qualname (cls self))) "edges" = true ->
      elements (fst (edges_setter self es))
      = Ok {| data := nd_map to_int_dtype es; writeable := true |})
  /\ forall es', snd (edges_setter self es') = snd (edges_setter self es).
Proof.
  split; [reflexivity |]. split; [reflexivity |]. split; [reflexivity |].
  split; [| reflexivity].
  intros Hname.
  assert (Hslot : _edges (fst (edges_setter self es))
                  = Some (make_tracked_array es)) by reflexivity.
  assert (Hname' : String.eqb
                     (lower (qualname (cls (fst (edges_setter self es)))))
                     "edges" = true) by exact Hname.
  exact (edges_setter_serves _ _ Hslot Hname').
Qed.

Lemma edges_setter_checks_no_shape_witness :
  edges (fst (edges_setter scenario2 (Vec [0; 1; 2])))
  = Ok {| data := Vec [0; 1; 2]; writeable := true |}
  /\ elements (fst (edges_setter scenario2 (Vec [0; 1; 2])))
     = Ok {| data := Vec [0; 1; 2]; writeable := true |}.
Proof.
  destruct (edges_setter_checks_no_shape scenario2 (Vec [0; 1; 2]))
    as (Hedges & _ & _ & Hserve & _).
  split; [exact Hedges | exact (Hserve eq_refl)].
Defined.

(** C5 fails as stated: for a table of row width 3 and for a
    one-dimensional array the setter raises AttributeError, as it does
    for a table of width 2, and by then the array has replaced the
    connectivity of the receiver. *)
Lemma edges_setter_ill_shaped_stored :
  edges_setter scenario2 (Mat [[0; 1; 2]])
  = (new_Edges square_points (Mat [[0; 1; 2]]), Raise AttributeError)
  /\ edges_setter scenario2 (Vec [0; 1; 2])
     = (new_Edges square_points (Vec [0; 1; 2]), Raise AttributeError)
  /\ snd (edges_setter scenario2 (Mat [[0; 1]])) = Raise AttributeError
  /\ edges (new_Edges square_points (Mat [[0; 1; 2]])) <> edges scenario2.
Proof. repeat split. discriminate. Qed.

(** ** Structural edits *)

(** C8: [subdivide] on an object whose kind is not "face" raises
    NotImplementedError. *)
Theorem subdivide_not_face
  (get_whatami : Edges -> string)
  (subdivide_tri subdivide_quad : Edges -> list point * nd Z)
  (self : Edges) (Hkind : kind (cls self) <> "face"%string) :
  subdivide get_whatami subdivide_tri subdivide_quad self
  = Raise NotImplementedError.
Proof.
  unfold subdivide.
  destruct (String.eqb_spec (kind (cls self)) "face") as [Heq | _];
    [contradiction | reflexivity].
Qed.

Lemma subdivide_not_face_witness :
  kind (cls scenario1) <> "face"%string
  /\ subdivide (fun _ => "tri"%string) (fun _ => ([], Mat []))
       (fun _ => ([], Mat [])) scenario1
     = Raise NotImplementedError.
Proof.
  split; [discriminate | apply subdivide_not_face; discriminate].
Defined.

(** Every instance of the class [Edges] itself is of kind "edge". *)
Lemma subdivide_Edges get_whatami subdivide_tri subdivide_quad self :
  cls self = Edges_class ->
  subdivide get_whatami subdivide_tri subdivide_quad self
  = Raise NotImplementedError.
Proof. intros Hcls. unfold subdivide. rewrite Hcls. reflexivity. Qed.

(** C4: [update_elements] never returns.  [elements] is a property, so
    [self.elements()] calls the array it yields (TypeError), or fails
    earlier when no connectivity is stored (AttributeError); on the
    scenario mesh with [inplace=False] the result is TypeError and no new
    object. *)
Theorem update_elements_raises :
  (forall self mask inplace,
      update_elements self mask inplace = Raise TypeError
      \/ update_elements self mask inplace = Raise AttributeError)
  /\ update_elements scenario1 [true; false; true] false = Raise TypeError.
Proof.
  split; [| reflexivity].
  intros self mask inplace. unfold update_elements.
  destruct (elements self) as [t | e] eqn:He; simpl; [by left |].
  right. f_equal.
  unfold elements, getattr, edges, const_edges, attr in He.
  repeat case_match; congruence.
Qed.

(** The second slip on the same path: the copy branch passes
    [inplace=False] to a method that takes no such parameter. *)
Lemma remove_unreferenced_vertices_refuses_inplace self :
  call_remove_unreferenced_vertices ["inplace"%string] self = Raise TypeError.
Proof. reflexivity. Qed.

(** C7: [shrink] never returns, for the same reason: line 439 calls the
    array that the [elements] property yields. *)
Theorem shrink_raises :
  (forall self ratio map_vertexdata,
      shrink self ratio map_vertexdata = Raise TypeError
      \/ shrink self ratio map_vertexdata = Raise AttributeError)
  /\ shrink scenario1 0.5%Q true = Raise TypeError.
Proof.
  split; [| reflexivity].
  intros self ratio mv. unfold shrink.
  destruct (elements self) as [t | e] eqn:He; simpl; [by left |].
  right. f_equal.
  unfold elements, getattr, edges, const_edges, attr in He.
  repeat case_match; congruence.
Qed.

(** ** Dashed edges *)

Lemma quotient_nonneg (divisor distance : Q) :
  (0 < divisor)%Q -> (0 <= distance)%Q ->
  0 <= Qfloor (distance / divisor).
Proof.
  intros Hdiv Hd.
  change 0 with (Qfloor (inject_Z 0)) at 1.
  apply Qfloor_resp_le.
  apply Qle_shift_div_l; [done |].
  by rewrite Qmult_0_l.
Qed.

Lemma linspaces_of_in_range (fmul : Q -> Q -> Q) (spacing distance : Q) :
  (0 < fmul spacing 1.5)%Q -> (0 <= distance)%Q ->
  (Qfloor (distance / fmul spacing 1.5%Q) + 1) * 3 < 2 ^ 31 ->
  linspaces_of fmul spacing distance
  = (Qfloor (distance / fmul spacing 1.5%Q) + 1) * 3.
Proof.
  intros Hdiv Hd Hfit.
  pose proof (quotient_nonneg _ distance Hdiv Hd) as Hq.
  unfold linspaces_of.
  destruct (Qeq_bool (fmul spacing 1.5%Q) 0) eqn:Hz.
  - apply Qeq_bool_iff in Hz. rewrite Hz in Hdiv.
    by apply Qlt_irrefl in Hdiv.
  - unfold astype_int32, INT32_MIN.
    destruct (Z.leb_spec (- 2 ^ 31)
                ((Qfloor (distance / fmul spacing 1.5%Q) + 1) * 3));
      destruct (Z.ltb_spec
                  ((Qfloor (distance / fmul spacing 1.5%Q) + 1) * 3)
                  (2 ^ 31)); simpl; lia.
Qed.

Lemma linspaces_of_zero_length (fmul : Q -> Q -> Q) (spacing distance : Q) :
  (0 < fmul spacing 1.5)%Q -> (distance == 0)%Q ->
  linspaces_of fmul spacing distance = 3.
Proof.
  intros Hdiv Hzero. unfold linspaces_of.
  destruct (Qeq_bool (fmul spacing 1.5%Q) 0) eqn:Hz.
  - apply Qeq_bool_iff in Hz. rewrite Hz in Hdiv.
    by apply Qlt_irrefl in Hdiv.
  - assert (Hquot : (distance / fmul spacing 1.5%Q == inject_Z 0)%Q).
    { rewrite Hzero. unfold Qdiv. apply Qmult_0_l. }
    rewrite Hquot, Qfloor_Z. reflexivity.
Qed.

(** The loop of [dashed] ends, with as many points per edge as asked. *)
Lemma linspace_length (v0 v1 : point) (num : Z) :
  0 <= num ->
  exists pts, linspace v0 v1 num = Ok pts /\ length pts = Z.to_nat num.
Proof.
  intros Hnum. unfold linspace.
  destruct (Z.ltb_spec num 0); [lia |].
  eexists. split; [reflexivity |].
  by rewrite length_map, length_seq.
Qed.

Lemma chop_total (v0s v1s : list point) (linspaces : list Z) :
  Forall (fun lins => 0 <= lins) linspaces ->
  exists blocks, chop v0s v1s linspaces = Ok blocks.
Proof.
  revert v1s linspaces.
  induction v0s as [| v0 v0s IH]; intros v1s linspaces Hall;
    [by eexists |].
  destruct v1s as [| v1 v1s]; [by eexists |].
  destruct linspaces as [| lins linspaces]; [by eexists |].
  inversion Hall as [| ? ? Hlins Hrest]; subst.
  destruct (linspace_length v0 v1 lins Hlins) as (pts & Hpts & _).
  destruct (IH v1s linspaces Hrest) as (blocks & Hblocks).
  simpl. rewrite Hpts. simpl. rewrite Hblocks. simpl. by eexists.
Qed.

(** C6, as the code has it: whenever the float product [spacing * 1.5] is
    positive and the count fits int32, the number of points chosen for an
    edge is [(floor(length / (spacing * 1.5)) + 1) * 3], the floor being
    that of the exact quotient by that product; it is at least 3, exactly
    3 for an edge of length zero, and [np.linspace] at line 406 returns
    exactly that many points for the edge. *)
Theorem linspaces_of_floor (fmul : Q -> Q -> Q) (spacing distance : Q)
  (Hdivisor : (0 < fmul spacing 1.5)%Q) (Hdistance : (0 <= distance)%Q)
  (Hfit : (Qfloor (distance / fmul spacing 1.5%Q) + 1) * 3 < 2 ^ 31) :
  linspaces_of fmul spacing distance
  = (Qfloor (distance / fmul spacing 1.5%Q) + 1) * 3
  /\ 3 <= linspaces_of fmul spacing distance
  /\ ((distance == 0)%Q -> linspaces_of fmul spacing distance = 3)
  /\ forall v0 v1,
      exists pts,
        linspace v0 v1 (linspaces_of fmul spacing distance) = Ok pts
        /\ Z.of_nat (length pts) = linspaces_of fmul spacing distance.
Proof.
  pose proof (quotient_nonneg _ distance Hdivisor Hdistance) as Hq.
  pose proof (linspaces_of_in_range fmul spacing distance Hdivisor
                Hdistance Hfit) as Heq.
  split; [exact Heq |]. split; [lia |].
  split; [by apply linspaces_of_zero_length |].
  intros v0 v1.
  destruct (linspace_length v0 v1 (linspaces_of fmul spacing distance))
    as (pts & Hpts & Hlen); [lia |].
  exists pts. split; [exact Hpts |]. lia.
Qed.

Lemma linspaces_of_floor_witness :
  (0 < Qmult 1 1.5)%Q /\ (0 <= 3)%Q
  /\ (Qfloor (3 / Qmult 1 1.5%Q) + 1) * 3 < 2 ^ 31
  /\ linspaces_of Qmult 1 3 = (Qfloor (3 / Qmult 1 1.5%Q) + 1) * 3
  /\ 3 <= linspaces_of Qmult 1 3.
Proof.
  assert (H1 : (0 < Qmult 1 1.5)%Q) by reflexivity.
  assert (H2 : (0 <= 3)%Q) by discriminate.
  assert (H3 : (Qfloor (3 / Qmult 1 1.5%Q) + 1) * 3 < 2 ^ 31) by reflexivity.
  destruct (linspaces_of_floor Qmult 1 3 H1 H2 H3) as (Ha & Hb & _).
  repeat split; assumption.
Defined.

(** C6 fails as stated: an edge of length 3 chopped with spacing 1 gets 9
    points, where rounding the quotient 2 up gives 2 * 3 = 6.  (The
    product 1 * 1.5 is exact in doubles.) *)
Lemma linspaces_of_not_round_up :
  linspaces_of Qmult 1 3 = 9
  /\ Qceiling (3 / (1 * 1.5)) * 3 = 6
  /\ linspaces_of Qmult 1 3 <> round_up_linspaces 1 3.
Proof.
  split; [reflexivity |]. split; [reflexivity |].
  intros H. vm_compute in H. discriminate H.
Qed.

(** X18: [dashed] is for edges only: on an object of any other kind it
    raises NotImplementedError, whatever the spacing. *)
Theorem dashed_not_edge (fmul fdiv : Q -> Q -> Q)
  (edge_length : point -> point -> Q)
  (get_bounds_diagonal_norm : Edges -> Q)
  (range_to_edges : Z -> Z -> bool -> list (list Z))
  (self : Edges) (spacing : option Q)
  (Hkind : kind (cls self) <> "edge"%string) :
  dashed fmul fdiv edge_length get_bounds_diagonal_norm range_to_edges
    self spacing
  = Raise NotImplementedError.
Proof.
  unfold dashed.
  destruct (String.eqb_spec (kind (cls self)) "edge") as [Heq | _];
    [contradiction | reflexivity].
Qed.

Lemma dashed_not_edge_witness :
  dashed Qmult Qdiv (fun _ _ => 0%Q) (fun _ => 1%Q) (fun _ _ _ => [])
    some_faces None
  = Raise NotImplementedError.
Proof. apply dashed_not_edge. discriminate. Defined.

(** X19: whenever the float product [spacing * 1.5] is positive, a longer
    edge never gets fewer points than a shorter one (as long as the
    larger count fits int32). *)
Theorem linspaces_of_monotone (fmul : Q -> Q -> Q) (spacing d1 d2 : Q)
  (Hdivisor : (0 < fmul spacing 1.5)%Q)
  (Hd1 : (0 <= d1)%Q) (Hd12 : (d1 <= d2)%Q)
  (Hfit : (Qfloor (d2 / fmul spacing 1.5%Q) + 1) * 3 < 2 ^ 31) :
  linspaces_of fmul spacing d1 <= linspaces_of fmul spacing d2.
Proof.
  assert (Hquot : Qfloor (d1 / fmul spacing 1.5%Q)
                  <= Qfloor (d2 / fmul spacing 1.5%Q)).
  { apply Qfloor_resp_le. unfold Qdiv.
    apply Qmult_le_compat_r; [done |].
    apply Qlt_le_weak. by apply Qinv_lt_0_compat. }
  rewrite (linspaces_of_in_range fmul spacing d1) by (try done; lia).
  rewrite (linspaces_of_in_range fmul spacing d2)
    by (try done; by apply Qle_trans with d1).
  lia.
Qed.

Lemma linspaces_of_monotone_witness :
  linspaces_of Qmult 1 1 <= linspaces_of Qmult 1 3.
Proof.
  apply linspaces_of_monotone; [reflexivity | discriminate | discriminate |].
  reflexivity.
Defined.


(** ** Lists as arrays *)


Lemma norm_index_of_nat (n k : nat) :
  (k < n)%nat -> norm_index n (Z.of_nat k) = Ok k.
Proof.
  intros Hk. unfold norm_index.
  destruct (Z.leb_spec 0 (Z.of_nat k)); [| lia].
  destruct (Z.ltb_spec (Z.of_nat k) (Z.of_nat n)); [| lia].
  simpl. by rewrite Nat2Z.id.
Qed.

Lemma getitem_of_nat {A : Type} (l : list A) (k : nat) (x : A) :
  l !! k = Some x -> getitem l (Z.of_nat k) = Ok x.
Proof.
  intros Hk. unfold getitem.
  rewrite norm_index_of_nat by (by eapply lookup_lt_Some).
  simpl. by rewrite Hk.
Qed.

(** [sort_row] sorts: its result is ascending and holds the same indices. *)
(** [sort_row] sorts: its result is ascending and holds the same indices. *)
Lemma insert_sorted_perm (x : Z) (l : list Z) : insert_sorted x l ≡ₚ x :: l.
Proof.
  induction l as [| y l IH]; simpl; [done |].
  destruct (x <=? y); [done |]. rewrite IH. apply Permutation_swap.
Qed.

Lemma sort_row_perm (row : list Z) : sort_row row ≡ₚ row.
Proof.
  induction row as [| x row IH]; simpl; [done |].
  rewrite insert_sorted_perm. by rewrite IH.
Qed.

Lemma insert_sorted_StronglySorted (x : Z) (l : list Z) :
  StronglySorted Z.le l -> StronglySorted Z.le (insert_sorted x l).
Proof.
  induction 1 as [| y l Hsorted IH Hhead]; simpl.
  - repeat constructor.
  - destruct (Z.leb_spec x y) as [Hle | Hgt].
    + constructor; [by constructor |].
      constructor; [done |].
      eapply Forall_impl; [exact Hhead |]. intros z Hz. simpl in Hz. lia.
    + constructor; [done |].
      rewrite insert_sorted_perm. constructor; [lia | done].
Qed.

Lemma sort_row_sorted (row : list Z) : StronglySorted Z.le (sort_row row).
Proof.
  induction row as [| x row IH]; simpl; [constructor |].
  by apply insert_sorted_StronglySorted.
Qed.

(** ** Sorted and unique edges, outlines *)

(** Line 219 assigns [edges_sorted], which is no slot: [sorted_edges]
    raises AttributeError on every receiver, with or without
    connectivity. *)
Lemma sorted_edges_raises (self : Edges) :
  sorted_edges self = Raise AttributeError.
Proof.
  unfold sorted_edges, get_edges, edges.
  by destruct (_edges self).
Qed.

Lemma get_edges_unique_raises (self : Edges) :
  get_edges_unique self = Raise AttributeError.
Proof.
  unfold get_edges_unique, get_edges_sorted.
  by rewrite sorted_edges_raises.
Qed.

(** C1 on the code: the reconstruction
    [get_edges_unique()[get_edges_unique_inverse()]] is never produced.
    [get_edges_unique] raises AttributeError on every receiver, as does
    the constructor for the table [[0,1],[1,0]]; the receiver that the
    failed setter leaves holding that table is no exception. *)
Theorem reconstruction_never_returns :
  (forall self, reconstruct self = Raise AttributeError)
  /\ Edges_init Edges_class (Some square_points)
       (Some (Mat [[0; 1]; [1; 0]])) None
     = Raise AttributeError
  /\ reconstruct reversed_pair = Raise AttributeError.
Proof.
  assert (Hall : forall self, reconstruct self = Raise AttributeError).
  { intros self. unfold reconstruct. by rewrite get_edges_unique_raises. }
  split; [exact Hall |]. split; [reflexivity | apply Hall].
Qed.

(** C2 on the code: [get_outlines] returns no outlines: it raises
    AttributeError on every receiver.  For the table
    [[0,1],[1,0],[2,3]] the constructor already raises, and so does
    [get_outlines] on the receiver the failed setter leaves holding the
    table. *)
Theorem outlines_never_returned :
  (forall self, get_outlines self = Raise AttributeError)
  /\ Edges_init Edges_class (Some square_points)
       (Some (Mat [[0; 1]; [1; 0]; [2; 3]])) None
     = Raise AttributeError
  /\ get_outlines scenario1 = Raise AttributeError.
Proof.
  assert (Hall : forall self, get_outlines self = Raise AttributeError).
  { intros self. unfold get_outlines. by rewrite get_edges_unique_raises. }
  split; [exact Hall |]. split; [reflexivity | apply Hall].
Qed.

(** C3 on the code: no row is returned by [get_edges_unique], in its
    original orientation or otherwise: [get_edges_unique],
    [get_edges_unique_id] and [get_edges_unique_inverse] raise
    AttributeError on every receiver, and [sorted_edges] does before
    them. *)
Theorem unique_edges_never_returned :
  (forall self,
      sorted_edges self = Raise AttributeError
      /\ get_edges_unique self = Raise AttributeError
      /\ get_edges_unique_id self = Raise AttributeError
      /\ get_edges_unique_inverse self = Raise AttributeError)
  /\ get_edges_unique
       (new_Edges square_points (Mat [[1; 0]; [3; 2]; [2; 3]]))
     = Raise AttributeError.
Proof.
  assert (Hall : forall self,
             sorted_edges self = Raise AttributeError
             /\ get_edges_unique self = Raise AttributeError
             /\ get_edges_unique_id self = Raise AttributeError
             /\ get_edges_unique_inverse self = Raise AttributeError).
  { intros self. split; [apply sorted_edges_raises |].
    split; [apply get_edges_unique_raises |].
    unfold get_edges_unique_id, get_edges_unique_inverse.
    by rewrite get_edges_unique_raises. }
  split; [exact Hall | apply Hall].
Qed.

(** X12: without a stored connectivity none of the derived quantities
    exists: sorting, the unique edges, their ids, the inverse mapping and
    the outlines all raise AttributeError. *)
Theorem no_connectivity_no_unique_edges (self : Edges)
  (Hnone : _edges self = None) :
  sorted_edges self = Raise AttributeError
  /\ get_edges_unique self = Raise AttributeError
  /\ get_edges_unique_id self = Raise AttributeError
  /\ get_edges_unique_inverse self = Raise AttributeError
  /\ get_outlines self = Raise AttributeError.
Proof.
  assert (Hsorted : sorted_edges self = Raise AttributeError).
  { unfold sorted_edges, get_edges, edges. by rewrite Hnone. }
  assert (Hunique : get_edges_unique self = Raise AttributeError).
  { unfold get_edges_unique, get_edges_sorted. by rewrite Hsorted. }
  unfold get_edges_unique_id, get_edges_unique_inverse, get_outlines.
  by rewrite Hunique.
Qed.

Lemma no_connectivity_no_unique_edges_witness :
  sorted_edges (Vertices_init Edges_class (Some square_points))
  = Raise AttributeError
  /\ get_edges_unique (Vertices_init Edges_class (Some square_points))
     = Raise AttributeError
  /\ get_edges_unique_id (Vertices_init Edges_class (Some square_points))
     = Raise AttributeError
  /\ get_edges_unique_inverse
       (Vertices_init Edges_class (Some square_points))
     = Raise AttributeError
  /\ get_outlines (Vertices_init Edges_class (Some square_points))
     = Raise AttributeError.
Proof.
  apply no_connectivity_no_unique_edges. reflexivity.
Defined.

(** ** Referenced vertices *)













(** ** Pruning *)

(** The object [update_vertices] is to return is built by the
    constructor, with a connectivity: it is never handed out. *)
Lemma update_vertices_never_returns (self : Edges) (mask : list bool)
  (inverse : list Z) (r : Edges) :
  update_vertices self mask inverse <> Ok r.
Proof.
  unfold update_vertices. intros Hr.
  apply bind_Ok in Hr as (vs & _ & Hr).
  apply bind_Ok in Hr as (vs' & _ & Hr).
  apply bind_Ok in Hr as (elems & _ & Hr).
  apply bind_Ok in Hr as (elems' & _ & Hr).
  apply bind_Ok in Hr as (vd' & _ & Hr).
  apply bind_Ok in Hr as (new_self & Hnew & _).
  discriminate.
Qed.

(** C9 on the code: [remove_unreferenced_vertices] returns no object,
    once or twice: on every receiver it raises, and on the mesh of
    scenario 2, whose table is in range, what it raises is the
    AttributeError of the constructor (line 80); that mesh cannot be
    built by the constructor in the first place. *)
Theorem pruning_never_returns :
  (forall self once, remove_unreferenced_vertices self <> Ok once)
  /\ (forall self once,
         (let* once := remove_unreferenced_vertices self in
          remove_unreferenced_vertices once) <> Ok once)
  /\ remove_unreferenced_vertices scenario2 = Raise AttributeError
  /\ Edges_init Edges_class (Some square_points) (Some (Mat [[0; 1]])) None
     = Raise AttributeError.
Proof.
  assert (Hall : forall self once,
             remove_unreferenced_vertices self <> Ok once).
  { intros self once Hr. unfold remove_unreferenced_vertices in Hr.
    apply bind_Ok in Hr as (referenced & _ & Hr).
    apply bind_Ok in Hr as (vs & _ & Hr).
    apply bind_Ok in Hr as (inverse & _ & Hr).
    by apply update_vertices_never_returns in Hr. }
  split; [exact Hall |]. split; [| split; reflexivity].
  intros self once Hr. apply bind_Ok in Hr as (first & Hfirst & _).
  by apply Hall in Hfirst.
Qed.

(** ** Centers *)









(** ** Subdivision *)

(** X17: on an object of kind "face" whose topology is neither a triangle
    nor a quadrilateral, [subdivide] raises nothing and returns no
    object. *)
Theorem subdivide_unknown_face
  (get_whatami : Edges -> string)
  (subdivide_tri subdivide_quad : Edges -> list point * nd Z)
  (self : Edges)
  (Hkind : kind (cls self) = "face"%string)
  (Htri : String.prefix "tri" (get_whatami self) = false)
  (Hquad : String.prefix "quad" (get_whatami self) = false) :
  subdivide get_whatami subdivide_tri subdivide_quad self = Ok None.
Proof. unfold subdivide. by rewrite Hkind, Htri, Hquad. Qed.

Lemma subdivide_unknown_face_witness :
  subdivide (fun _ => "hexa"%string) (fun _ => ([], Mat []))
    (fun _ => ([], Mat [])) some_faces
  = Ok None.
Proof. apply subdivide_unknown_face; reflexivity. Defined.
